(** * Verification of the volume-action request builder of the
    [digitalocean] crate (src/api/volume_action.rs, src/lib.rs).

    The development embeds:
    - the fragment of the [url] crate the builder relies on: [Url::parse]
      for absolute URLs with a special scheme, [Url::path_segments_mut] and
      [PathSegmentsMut::push];
    - [serde_json::Value] for request bodies;
    - [Request<A, V>] with its phantom method/value parameters;
    - the constructors of [volume_action.rs] and [DigitalOcean::execute]. *)

From Stdlib Require Import String Ascii List Bool NArith ZArith Lia.
From Stdlib Require Import DecimalString DecimalN.
Import ListNotations.
Open Scope string_scope.

(* ------------------------------------------------------------------ *)
(** ** Characters *)

Definition code (c : ascii) : nat := nat_of_ascii c.

Definition is_ascii_alpha (c : ascii) : bool :=
  let n := code c in (Nat.leb 65 n && Nat.leb n 90) || (Nat.leb 97 n && Nat.leb n 122).

Definition is_ascii_digit (c : ascii) : bool :=
  let n := code c in Nat.leb 48 n && Nat.leb n 57.

Definition to_ascii_lowercase (c : ascii) : ascii :=
  let n := code c in
  if Nat.leb 65 n && Nat.leb n 90 then ascii_of_nat (n + 32)%nat else c.

Definition mem_char (c : ascii) (l : list ascii) : bool :=
  existsb (Ascii.eqb c) l.

Definition slash : ascii := "/".
Definition backslash : ascii := "092".

(* ------------------------------------------------------------------ *)
(** ** Percent-encoding ([percent_encoding] as used by [url] 1.x) *)

(** [SIMPLE_ENCODE_SET]: C0 controls and every byte above [~]. *)
Definition SIMPLE_ENCODE_SET (b : ascii) : bool :=
  Nat.ltb (code b) 32 || Nat.ltb 126 (code b).

(** [QUERY_ENCODE_SET]: simple set plus space, double quote, #, <, >. *)
Definition QUERY_ENCODE_SET (b : ascii) : bool :=
  SIMPLE_ENCODE_SET b || mem_char b [" "; "034"; "#"; "<"; ">"]%char.

(** [DEFAULT_ENCODE_SET]: query set plus backtick, ?, braces. *)
Definition DEFAULT_ENCODE_SET (b : ascii) : bool :=
  QUERY_ENCODE_SET b || mem_char b ["`"; "?"; "{"; "}"]%char.

(** [PATH_SEGMENT_ENCODE_SET]: default set plus % and /. *)
Definition PATH_SEGMENT_ENCODE_SET (b : ascii) : bool :=
  DEFAULT_ENCODE_SET b || mem_char b ["%"; "/"]%char.

(** [SPECIAL_PATH_SEGMENT_ENCODE_SET]: path segment set plus backslash. *)
Definition SPECIAL_PATH_SEGMENT_ENCODE_SET (b : ascii) : bool :=
  PATH_SEGMENT_ENCODE_SET b || Ascii.eqb b backslash.

Definition hex_upper (n : nat) : ascii :=
  if Nat.ltb n 10 then ascii_of_nat (48 + n)%nat else ascii_of_nat (55 + n)%nat.

(** One byte of [utf8_percent_encode]: a byte of the set becomes [%XX]
    (upper-case hex); any other byte is copied.  A Rust [&str] is its
    UTF-8 bytes, which is what a Rocq [string] of [ascii] bytes holds. *)
Definition percent_encode_byte (set : ascii -> bool) (b : ascii) : string :=
  if set b
  then String "%" (String (hex_upper (Nat.div (code b) 16))
                     (String (hex_upper (Nat.modulo (code b) 16)) EmptyString))
  else String b EmptyString.

Fixpoint utf8_percent_encode (s : string) (set : ascii -> bool) : string :=
  match s with
  | EmptyString => EmptyString
  | String b rest => percent_encode_byte set b ++ utf8_percent_encode rest set
  end.

(* ------------------------------------------------------------------ *)
(** ** [usize::to_string] *)

Fixpoint uint_to_string (d : Decimal.uint) : string :=
  match d with
  | Decimal.Nil => EmptyString
  | Decimal.D0 r => String "0" (uint_to_string r)
  | Decimal.D1 r => String "1" (uint_to_string r)
  | Decimal.D2 r => String "2" (uint_to_string r)
  | Decimal.D3 r => String "3" (uint_to_string r)
  | Decimal.D4 r => String "4" (uint_to_string r)
  | Decimal.D5 r => String "5" (uint_to_string r)
  | Decimal.D6 r => String "6" (uint_to_string r)
  | Decimal.D7 r => String "7" (uint_to_string r)
  | Decimal.D8 r => String "8" (uint_to_string r)
  | Decimal.D9 r => String "9" (uint_to_string r)
  end.

(** A [usize] is a natural number below [2^64]; printing it in decimal
    does no arithmetic, so it is modelled on [N]. *)
Definition usize_to_string (n : N) : string := uint_to_string (N.to_uint n).

(* ------------------------------------------------------------------ *)
(** ** [url::Url] *)

(** [SchemeType] of the [url] crate. *)
Inductive SchemeType := File | SpecialNotFile | NotSpecial.

Definition SchemeType_from (s : string) : SchemeType :=
  if String.eqb s "http" || String.eqb s "https" || String.eqb s "ws"
     || String.eqb s "wss" || String.eqb s "ftp" || String.eqb s "gopher"
  then SpecialNotFile
  else if String.eqb s "file" then File else NotSpecial.

Definition is_special (t : SchemeType) : bool :=
  match t with NotSpecial => false | _ => true end.

(** A [Url] by its components.  [path] is the serialization of the path
    (from [path_start] to the query), [query_fragment] is the serialized
    [?query#fragment] tail (possibly empty). *)
Record Url := mkUrl {
  scheme : string;
  host : string;
  port : option N;
  path : string;
  query_fragment : string
}.

(** [Url::cannot_be_a_base]: the path does not start with a slash. *)
Definition cannot_be_a_base (u : Url) : bool :=
  match path u with
  | String c _ => negb (Ascii.eqb c slash)
  | EmptyString => true
  end.

Fixpoint split_slash (s : string) : list string :=
  match s with
  | EmptyString => [EmptyString]
  | String c rest =>
      let segs := split_slash rest in
      if Ascii.eqb c slash then EmptyString :: segs
      else match segs with
           | h :: t => String c h :: t
           | [] => [String c EmptyString]
           end
  end.

(** [Url::path_segments]: [None] for cannot-be-a-base URLs, otherwise the
    path after its first slash split on slashes. *)
Definition path_segments (u : Url) : option (list string) :=
  if cannot_be_a_base u then None
  else match path u with
       | String _ rest => Some (split_slash rest)
       | EmptyString => None
       end.

Definition port_to_string (p : option N) : string :=
  match p with
  | Some n => ":" ++ usize_to_string n
  | None => EmptyString
  end.

(** [Url::as_str] for URLs with a host and no user info. *)
Definition serialize (u : Url) : string :=
  scheme u ++ "://" ++ host u ++ port_to_string (port u) ++ path u
  ++ query_fragment u.

(* ------------------------------------------------------------------ *)
(** ** [Url::path_segments_mut] and [PathSegmentsMut::push] *)

(** [Url::path_segments_mut]: [Err(())] ([None]) for a cannot-be-a-base
    URL.  The mutator is the URL itself; the [query_fragment] tail it
    takes out and restores when dropped is left in place here. *)
Definition path_segments_mut (u : Url) : option Url :=
  if cannot_be_a_base u then None else Some u.

Definition is_tab_or_newline (c : ascii) : bool :=
  Ascii.eqb c "009" || Ascii.eqb c "010" || Ascii.eqb c "013".

(** [parser::Input::new] drops ASCII tabs and newlines. *)
Fixpoint remove_tab_newline (s : string) : string :=
  match s with
  | EmptyString => EmptyString
  | String c r =>
      if is_tab_or_newline c then remove_tab_newline r
      else String c (remove_tab_newline r)
  end.

Fixpoint ends_with_slash (s : string) : bool :=
  match s with
  | EmptyString => false
  | String c EmptyString => Ascii.eqb c slash
  | String _ r => ends_with_slash r
  end.

Fixpoint remove_last_char (s : string) : string :=
  match s with
  | EmptyString | String _ EmptyString => EmptyString
  | String c r => String c (remove_last_char r)
  end.

Fixpoint through_last_slash (s : string) : option string :=
  match s with
  | EmptyString => None
  | String c r =>
      match through_last_slash r with
      | Some t => Some (String c t)
      | None => if Ascii.eqb c slash then Some (String c EmptyString) else None
      end
  end.

(** [Parser::pop_path]: truncate the path just after its last slash. *)
Definition pop_path (p : string) : string :=
  match through_last_slash p with Some t => t | None => p end.

(** [PathSegmentsMut::push(segment)], i.e. [extend(Some(segment))] of
    [url] 1.x: a segment equal to "." or ".." is ignored; a slash is
    appended unless the path is just "/"; the segment, without tabs and
    newlines, is percent-encoded with the (special) path-segment set, so a
    slash inside it becomes %2F.  When the encoded segment is "." or ".."
    (possible only when tabs or newlines were dropped) [parse_path]
    applies the dot-segment rule to it.  The Windows drive-letter rule of
    [file] URLs is not modelled. *)
Definition push (u : Url) (segment : string) : Url :=
  if String.eqb segment "." || String.eqb segment ".." then u
  else
    let p := path u in
    let p1 := if Nat.ltb 1 (String.length p) then p ++ "/" else p in
    let set := if is_special (SchemeType_from (scheme u))
               then SPECIAL_PATH_SEGMENT_ENCODE_SET
               else PATH_SEGMENT_ENCODE_SET in
    let enc := utf8_percent_encode (remove_tab_newline segment) set in
    let p2 :=
      if String.eqb enc ".." then
        let q := pop_path (remove_last_char p1) in
        if ends_with_slash q then q else q ++ "/"
      else if String.eqb enc "." then p1
      else p1 ++ enc in
    {| scheme := scheme u; host := host u; port := port u; path := p2;
       query_fragment := query_fragment u |}.

(** [url.path_segments_mut().expect(STATIC_URL_ERROR).push(s1)...push(sn)];
    [None] is the panic of [expect]. *)
Definition push_segments (u : Url) (segments : list string) : option Url :=
  match path_segments_mut u with
  | None => None
  | Some m => Some (fold_left push segments m)
  end.

(* ------------------------------------------------------------------ *)
(** ** [Url::parse] on absolute URLs with a special scheme *)

(** Outcome of [Url::parse].  [NotModelled] marks inputs that leave the
    fragment of the parser embedded here (file and non-special schemes,
    user info, IPv4 and bracketed IPv6 hosts, percent-encoded or non-ASCII
    hosts, queries and fragments); the real parser decides
    them, this development never needs them. *)
Inductive ParseResult :=
| Parsed (u : Url)
| ParseError
| NotModelled.

Definition is_c0_control_or_space (c : ascii) : bool := Nat.leb (code c) 32.

Fixpoint trim_start (l : list ascii) : list ascii :=
  match l with
  | c :: r => if is_c0_control_or_space c then trim_start r else l
  | [] => []
  end.

Definition trim_c0_control_and_space (l : list ascii) : list ascii :=
  rev (trim_start (rev (trim_start l))).

Definition is_scheme_char (c : ascii) : bool :=
  is_ascii_alpha c || is_ascii_digit c || mem_char c ["+"; "-"; "."]%char.

Fixpoint parse_scheme_rest (l : list ascii) : option (list ascii * list ascii) :=
  match l with
  | [] => None
  | c :: r =>
      if Ascii.eqb c ":" then Some ([], r)
      else if is_scheme_char c then
        match parse_scheme_rest r with
        | Some (s, rest) => Some (to_ascii_lowercase c :: s, rest)
        | None => None
        end
      else None
  end.

(** Scheme start and scheme states; without a base URL a missing or
    malformed scheme is an error. *)
Definition parse_scheme (l : list ascii) : option (list ascii * list ascii) :=
  match l with
  | c :: r =>
      if is_ascii_alpha c then
        match parse_scheme_rest r with
        | Some (s, rest) => Some (to_ascii_lowercase c :: s, rest)
        | None => None
        end
      else None
  | [] => None
  end.

Fixpoint skip_slashes (l : list ascii) : list ascii :=
  match l with
  | c :: r => if Ascii.eqb c slash || Ascii.eqb c backslash then skip_slashes r else l
  | [] => []
  end.

Fixpoint split_at_first (stop : ascii -> bool) (l : list ascii)
  : list ascii * list ascii :=
  match l with
  | [] => ([], [])
  | c :: r =>
      if stop c then ([], l)
      else let '(a, b) := split_at_first stop r in (c :: a, b)
  end.

Definition digits_value (l : list ascii) : N :=
  fold_left (fun acc c => (10 * acc + N.of_nat (code c - 48))%N) l 0%N.

Definition default_port (s : string) : option N :=
  if String.eqb s "http" || String.eqb s "ws" then Some 80%N
  else if String.eqb s "https" || String.eqb s "wss" then Some 443%N
  else if String.eqb s "ftp" then Some 21%N
  else if String.eqb s "gopher" then Some 70%N
  else None.

Definition forbidden_host_code_point (c : ascii) : bool :=
  mem_char c ["000"; "009"; "010"; "013"; " "; "#"; "%"; "/"; ":"; "?"; "@";
              "["; "092"; "]"]%char.

(** Port state: an empty port is no port; the default port of the
    scheme is dropped. *)
Definition parse_port (sch : string) (l : list ascii) : option (option N) :=
  match l with
  | [] => Some None
  | _ =>
      if forallb is_ascii_digit l then
        let n := digits_value l in
        if N.ltb 65535 n then None
        else match default_port sch with
             | Some d => if N.eqb n d then Some None else Some (Some n)
             | None => Some (Some n)
             end
      else None
  end.

(** Last dot-separated label of a host. *)
Definition last_label (l : list ascii) : list ascii :=
  rev (fst (split_at_first (fun c => Ascii.eqb c ".") (rev l))).

(** Host parser for an ASCII domain: lower-cased; forbidden code points
    are an error. *)
Definition parse_host (l : list ascii) : ParseResult + list ascii :=
  match l with
  | [] => inl ParseError
  | _ =>
      if existsb (fun c => Ascii.eqb c "%" || Nat.leb 128 (code c)) l
      then inl NotModelled
      else
        let d := map to_ascii_lowercase l in
        if existsb forbidden_host_code_point d then inl ParseError
        else match last_label d with
             | c :: _ => if is_ascii_digit c then inl NotModelled else inr d
             | [] => inr d
             end
  end.

Definition is_single_dot (b : string) : bool :=
  let b := string_of_list_ascii (map to_ascii_lowercase (list_ascii_of_string b)) in
  String.eqb b "." || String.eqb b "%2e".

Definition is_double_dot (b : string) : bool :=
  let b := string_of_list_ascii (map to_ascii_lowercase (list_ascii_of_string b)) in
  String.eqb b ".." || String.eqb b ".%2e" || String.eqb b "%2e."
  || String.eqb b "%2e%2e".

(** End of one segment of the path state (special URL, not [file]). *)
Definition end_segment (buffer : string) (segs : list string) (at_eof : bool)
  : list string :=
  if is_double_dot buffer then
    let segs := removelast segs in
    if at_eof then segs ++ [EmptyString] else segs
  else if is_single_dot buffer then
    if at_eof then segs ++ [EmptyString] else segs
  else segs ++ [buffer].

(** Path state: slashes and backslashes separate segments, other bytes
    are percent-encoded with the default encode set. *)
Fixpoint path_state (l : list ascii) (buffer : string) (segs : list string)
  : list string :=
  match l with
  | [] => end_segment buffer segs true
  | c :: r =>
      if Ascii.eqb c slash || Ascii.eqb c backslash
      then path_state r EmptyString (end_segment buffer segs false)
      else path_state r (buffer ++ percent_encode_byte DEFAULT_ENCODE_SET c) segs
  end.

Definition serialize_path (segs : list string) : string :=
  fold_right (fun s acc => "/" ++ s ++ acc) EmptyString segs.

(** [Url::parse(input)] without a base URL. *)
Definition Url_parse (input : string) : ParseResult :=
  let l := filter (fun c => negb (is_tab_or_newline c))
             (trim_c0_control_and_space (list_ascii_of_string input)) in
  match parse_scheme l with
  | None => ParseError
  | Some (sch, rest) =>
      let sch := string_of_list_ascii sch in
      match SchemeType_from sch with
      | SpecialNotFile =>
          let '(authority, rest) :=
            split_at_first (fun c => mem_char c [slash; backslash; "?"; "#"]%char)
              (skip_slashes rest) in
          if mem_char "@" authority || mem_char "[" authority then NotModelled
          else
            let '(rport, rhost) :=
              split_at_first (fun c => Ascii.eqb c ":") (rev authority) in
            let '(host_part, port_part) :=
              match rhost with
              | [] => (rev rport, [])
              | _ :: rh => (rev rh, rev rport)
              end in
            match parse_host host_part with
            | inl r => r
            | inr h =>
                match parse_port sch port_part with
                | None => ParseError
                | Some p =>
                    let '(path_part, qf) :=
                      split_at_first (fun c => mem_char c ["?"; "#"]%char) rest in
                    match qf with
                    | _ :: _ => NotModelled
                    | [] =>
                        let segs :=
                          match path_part with
                          | [] => [EmptyString]
                          | _ :: r => path_state r EmptyString []
                          end in
                        Parsed {| scheme := sch; host := string_of_list_ascii h;
                                  port := p; path := serialize_path segs;
                                  query_fragment := EmptyString |}
                    end
                end
            end
      | _ => NotModelled
      end
  end.

(* ------------------------------------------------------------------ *)
(** ** [serde_json::Value] *)

Local Set Warnings "-register-all".

Module Json.

(** [serde_json::Value]; a JSON number is kept as an integer (the bodies
    built here only hold [usize] numbers), an object as its entries in the
    order the [json!] literal lists them. *)
Inductive Value :=
| Null
| Bool (b : bool)
| Number (n : Z)
| String (s : string)
| Array (a : list Value)
| Object (entries : list (string * Value)).

End Json.

(** [json!(x)] for a [usize] and for a string-like value. *)
Definition json_usize (n : N) : Json.Value := Json.Number (Z.of_N n).
Definition json_str (s : string) : Json.Value := Json.String s.

(* ------------------------------------------------------------------ *)
(** ** Method markers and resource types *)

(** [method::{List, Get, Create}]: unit structs used only as type
    parameters. *)
Module method.
Inductive List : Type := List_marker.
Inductive Get : Type := Get_marker.
Inductive Create : Type := Create_marker.
End method.

(** [api::{Volume, Action}]: their fields are not read by the builder,
    they only appear as the [V] parameter of [Request<A, V>]. *)
Module api.
Inductive Volume : Type := Volume_record.
Inductive Action : Type := Action_record.
End api.

(* ------------------------------------------------------------------ *)
(** ** [request::Request<A, V>] *)

(** Modelled from the spec: [request.rs] ([Request], [Request::new],
    [set_body], [url_mut], [transmute]) is not part of the sources.
    Spec section 3: a Request is a target URL, an optional JSON body and two
    phantom tags (never inspected at run time). *)
Record Request (A V : Type) := mkRequest {
  url : Url;
  body : option Json.Value
}.
Arguments mkRequest {A V}.
Arguments url {A V}.
Arguments body {A V}.

(** Modelled from the spec: [new(url)] constructs a Request with an empty
    body. *)
Definition Request_new {A V : Type} (u : Url) : Request A V :=
  {| url := u; body := None |}.

(** Modelled from the spec: [set_body(payload)] replaces any existing body;
    last write wins. *)
Definition set_body {A V : Type} (r : Request A V) (payload : Json.Value)
  : Request A V :=
  {| url := url r; body := Some payload |}.

(** Writing back through [url_mut()]. *)
Definition set_url {A V : Type} (r : Request A V) (u : Url) : Request A V :=
  {| url := u; body := body r |}.

(** Modelled from the spec: [transmute()] changes the Method/Value
    parameters and keeps URL and body. *)
Definition transmute {A V B W : Type} (r : Request A V) : Request B W :=
  {| url := url r; body := body r |}.

(* ------------------------------------------------------------------ *)
(** ** [lib.rs]: [STATIC_URL_ERROR] and [ROOT_URL] *)

Definition ROOT_URL_STR : string := "https://api.digitalocean.com/v2".

(** [lazy_static! { static ref ROOT_URL: Url =
    Url::parse("https://api.digitalocean.com/v2").expect(STATIC_URL_ERROR); }];
    [None] is the panic of [expect]. *)
Definition ROOT_URL : option Url :=
  match Url_parse ROOT_URL_STR with
  | Parsed u => Some u
  | _ => None
  end.

(* ------------------------------------------------------------------ *)
(** ** [api/volume_action.rs] *)

Definition VOLUMES_SEGMENT : string := "volumes".
Definition VOLUME_ACTIONS_SEGMENT : string := "actions".

(** [Volume::attach(volume_name, droplet)]; [None] is a panic of one of
    the [expect(STATIC_URL_ERROR)] calls. *)
Definition Volume_attach (volume_name : string) (droplet : N)
  : option (Request method.Create api.Action) :=
  match ROOT_URL with
  | None => None
  | Some root =>
      match push_segments root [VOLUMES_SEGMENT] with
      | None => None
      | Some u =>
          let req := Request_new u in
          Some (set_body req (Json.Object [("type", json_str "attach");
                                           ("volume_name", json_str volume_name);
                                           ("droplet_id", json_usize droplet)]))
      end
  end.

(** [Volume::detach(volume_name, droplet)]. *)
Definition Volume_detach (volume_name : string) (droplet : N)
  : option (Request method.Create api.Action) :=
  match ROOT_URL with
  | None => None
  | Some root =>
      match push_segments root [VOLUMES_SEGMENT] with
      | None => None
      | Some u =>
          let req := Request_new u in
          Some (set_body req (Json.Object [("type", json_str "detach");
                                           ("volume_name", json_str volume_name);
                                           ("droplet_id", json_usize droplet)]))
      end
  end.

(** [Request<Get, Volume>::attach(self, droplet)]. *)
Definition Request_Get_Volume_attach (self : Request method.Get api.Volume)
  (droplet : N) : option (Request method.Create api.Action) :=
  match push_segments (url self) [VOLUME_ACTIONS_SEGMENT] with
  | None => None
  | Some u =>
      let self := set_url self u in
      let self := set_body self (Json.Object [("type", json_str "attach");
                                              ("droplet_id", json_usize droplet)]) in
      Some (transmute self)
  end.

(** [Request<Get, Volume>::detach(self, droplet)]. *)
Definition Request_Get_Volume_detach (self : Request method.Get api.Volume)
  (droplet : N) : option (Request method.Create api.Action) :=
  match push_segments (url self) [VOLUME_ACTIONS_SEGMENT] with
  | None => None
  | Some u =>
      let self := set_url self u in
      let self := set_body self (Json.Object [("type", json_str "detach");
                                              ("droplet_id", json_usize droplet)]) in
      Some (transmute self)
  end.

(** [Request<Get, Volume>::resize(self, size)]. *)
Definition Request_Get_Volume_resize (self : Request method.Get api.Volume)
  (size : N) : option (Request method.Create api.Action) :=
  match push_segments (url self) [VOLUME_ACTIONS_SEGMENT] with
  | None => None
  | Some u =>
      let self := set_url self u in
      let self := set_body self (Json.Object [("type", json_str "resize");
                                              ("size_gigabytes", json_usize size)]) in
      Some (transmute self)
  end.

(** [Request<Get, Volume>::actions(self)]. *)
Definition Request_Get_Volume_actions (self : Request method.Get api.Volume)
  : option (Request method.List (list api.Action)) :=
  match push_segments (url self) [VOLUME_ACTIONS_SEGMENT] with
  | None => None
  | Some u => Some (transmute (set_url self u))
  end.

(** [Request<Get, Volume>::action(self, id)]. *)
Definition Request_Get_Volume_action (self : Request method.Get api.Volume)
  (id : N) : option (Request method.Get api.Action) :=
  match push_segments (url self) [VOLUME_ACTIONS_SEGMENT; usize_to_string id] with
  | None => None
  | Some u => Some (transmute (set_url self u))
  end.

(* ------------------------------------------------------------------ *)
(** ** [lib.rs]: the client and [DigitalOcean::execute] *)

Section Execution.

(** [client::Client] (the transport handle), the state of the world the
    transport reads and changes, and the crate's [Error]; none of them is
    part of the sources. *)
Variable Client : Type.
Variable World : Type.
Variable Error : Type.

(** [pub struct DigitalOcean { client: client::Client, token: String }]. *)
Record DigitalOcean := mkDigitalOcean {
  client : Client;
  token : string
}.

(** [error::Result<V>]. *)
Definition Result (V : Type) : Type := (V + Error)%type.

(** [request::Executable<V>]: [fn execute(self, instance: &DigitalOcean)
    -> Result<V>], a computation that performs the network round trip. *)
Class Executable (A V : Type) :=
  execute : Request A V -> DigitalOcean -> World -> Result V * World.

(** [DigitalOcean::execute(&self, request) -> Result<V> { request.execute(self) }]. *)
Definition DigitalOcean_execute {A V : Type} `{Executable A V}
  (self : DigitalOcean) (request : Request A V) : World -> Result V * World :=
  execute request self.

End Execution.

(** ** [lib.rs]: [DigitalOcean::new] *)

Section Construction.

Variable Client : Type.
Variable Error : Type.

(** [client::Client::new()], its error already converted by [?]. *)
Variable Client_new : (Client + Error)%type.


End Construction.

(* ------------------------------------------------------------------ *)
(** ** Vocabulary of the properties *)

(** The URL [u] with its path replaced by [p]. *)
Definition with_path (u : Url) (p : string) : Url :=
  {| scheme := scheme u; host := host u; port := port u; path := p;
     query_fragment := query_fragment u |}.

Definition starts_with_slash (s : string) : bool :=
  match s with String c _ => Ascii.eqb c slash | EmptyString => false end.

(** ASCII letters and digits: bytes no encode set touches. *)
Definition is_plain_char (c : ascii) : bool := is_ascii_alpha c || is_ascii_digit c.

Fixpoint is_plain (s : string) : bool :=
  match s with
  | EmptyString => true
  | String c r => is_plain_char c && is_plain r
  end.

(** "/s1/s2/.../sn". *)
Definition join_segments (segs : list string) : string :=
  fold_right (fun s acc => "/" ++ s ++ acc) EmptyString segs.

(** [u'] has the scheme, host, port, query and fragment of [u], and its
    path segments are those of [u] followed by [added]. *)
Definition appends_segments (u u' : Url) (added : list string) : Prop :=
  scheme u' = scheme u /\ host u' = host u /\ port u' = port u
  /\ query_fragment u' = query_fragment u
  /\ exists segs, path_segments u = Some segs
                  /\ path_segments u' = Some (segs ++ added)%list.

Definition appends_segments_opt {B W : Type} (u : Url)
  (o : option (Request B W)) (added : list string) : Prop :=
  match o with
  | Some r' => appends_segments u (url r') added
  | None => False
  end.

(** URLs obtained from [ROOT_URL] by pushing path segments: by the spec
    (section 6) every Request URL is a path extension of the root. *)
Inductive root_derived : Url -> Prop :=
| root_derived_root u : ROOT_URL = Some u -> root_derived u
| root_derived_push u s : root_derived u -> root_derived (push u s).


(** The Request [Volume::get("abc123")] stands for in the witnesses. *)
Definition example_volume_url : Url :=
  {| scheme := "https"; host := "api.digitalocean.com"; port := None;
     path := "/v2/volumes/abc123"; query_fragment := EmptyString |}.

Definition example_volume_request : Request method.Get api.Volume :=
  Request_new example_volume_url.

(* ================================================================== *)
(** * Properties *)

(** ** Checks of the models on concrete inputs *)

Example parse_example_1 :
  Url_parse "HTTPS://Example.COM:443/a/./b/../c" =
  Parsed {| scheme := "https"; host := "example.com"; port := None;
            path := "/a/c"; query_fragment := EmptyString |}.
Proof. reflexivity. Qed.

Example parse_example_2 : Url_parse "https://exa mple.com/" = ParseError.
Proof. reflexivity. Qed.

Example parse_example_3 :
  Url_parse "http://h:8080" =
  Parsed {| scheme := "http"; host := "h"; port := Some 8080%N;
            path := "/"; query_fragment := EmptyString |}.
Proof. reflexivity. Qed.

Example root_url_value :
  ROOT_URL = Some {| scheme := "https"; host := "api.digitalocean.com";
                     port := None; path := "/v2"; query_fragment := EmptyString |}.
Proof. reflexivity. Qed.

Example push_example :
  option_map (fun u => path u)
    (push_segments {| scheme := "https"; host := "h"; port := None;
                      path := "/v2/volumes/abc123"; query_fragment := EmptyString |}
       ["actions"; usize_to_string 7; "a/b c"; ".."]) =
  Some "/v2/volumes/abc123/actions/7/a%2Fb%20c".
Proof. reflexivity. Qed.

(** ** Strings and segments *)

Lemma string_app_assoc (a b c : string) : (a ++ b) ++ c = a ++ (b ++ c).
Proof. induction a as [|x a IH]; simpl; [reflexivity | now rewrite IH]. Qed.

Lemma string_app_nil_r (a : string) : a ++ EmptyString = a.
Proof. induction a as [|x a IH]; simpl; [reflexivity | now rewrite IH]. Qed.

Lemma string_length_app (a b : string) :
  String.length (a ++ b) = (String.length a + String.length b)%nat.
Proof. induction a as [|x a IH]; simpl; [reflexivity | now rewrite IH]. Qed.

Lemma plain_char_facts (c : ascii) :
  is_plain_char c = true ->
  SPECIAL_PATH_SEGMENT_ENCODE_SET c = false
  /\ PATH_SEGMENT_ENCODE_SET c = false
  /\ is_tab_or_newline c = false
  /\ Ascii.eqb c slash = false.
Proof.
  destruct c as [[] [] [] [] [] [] [] []]; intro H; vm_compute in H |- *;
    try discriminate H; repeat split.
Qed.

Lemma remove_tab_newline_plain (s : string) :
  is_plain s = true -> remove_tab_newline s = s.
Proof.
  induction s as [|c s IH]; simpl; intro H; [reflexivity|].
  apply andb_prop in H as [Hc Hs].
  destruct (plain_char_facts c Hc) as (_ & _ & -> & _).
  now rewrite IH.
Qed.

Lemma encode_plain (s : string) (set : ascii -> bool) :
  (forall c, is_plain_char c = true -> set c = false) ->
  is_plain s = true -> utf8_percent_encode s set = s.
Proof.
  intros Hset; induction s as [|c s IH]; simpl; intro H; [reflexivity|].
  apply andb_prop in H as [Hc Hs].
  unfold percent_encode_byte; rewrite (Hset c Hc); simpl.
  now rewrite IH.
Qed.

Lemma plain_not_dot (s : string) :
  is_plain s = true -> String.eqb s "." = false /\ String.eqb s ".." = false.
Proof.
  intro H; split.
  - destruct (String.eqb_spec s "."); [subst; discriminate H | reflexivity].
  - destruct (String.eqb_spec s ".."); [subst; discriminate H | reflexivity].
Qed.

Lemma uint_to_string_plain (d : Decimal.uint) : is_plain (uint_to_string d) = true.
Proof. induction d; simpl; try rewrite IHd; reflexivity. Qed.

Lemma usize_to_string_plain (n : N) : is_plain (usize_to_string n) = true.
Proof. apply uint_to_string_plain. Qed.

Lemma split_slash_nonempty (s : string) : split_slash s <> [].
Proof.
  destruct s as [|c s]; simpl; [discriminate|].
  destruct (Ascii.eqb c slash); [discriminate|].
  destruct (split_slash s); discriminate.
Qed.

Lemma split_slash_app (p q : string) :
  split_slash (p ++ "/" ++ q) = (split_slash p ++ split_slash q)%list.
Proof.
  change ("/" ++ q) with (String "/" q).
  induction p as [|c p IH]; cbn [append split_slash].
  - reflexivity.
  - rewrite IH. destruct (Ascii.eqb c slash); [reflexivity|].
    destruct (split_slash p) eqn:E; [exfalso; exact (split_slash_nonempty p E)|].
    reflexivity.
Qed.

Lemma split_slash_plain (s : string) : is_plain s = true -> split_slash s = [s].
Proof.
  induction s as [|c s IH]; simpl; intro H; [reflexivity|].
  apply andb_prop in H as [Hc Hs].
  destruct (plain_char_facts c Hc) as (_ & _ & _ & ->).
  now rewrite IH.
Qed.

Lemma split_slash_join (added : list string) (rest : string) :
  forallb is_plain added = true ->
  split_slash (rest ++ join_segments added) = (split_slash rest ++ added)%list.
Proof.
  revert rest; induction added as [|s added IH]; intros rest H.
  - cbn; now rewrite string_app_nil_r, app_nil_r.
  - apply andb_prop in H as [Hs Hadded].
    change (join_segments (s :: added)) with ("/" ++ s ++ join_segments added).
    replace (rest ++ "/" ++ s ++ join_segments added)
      with ((rest ++ "/" ++ s) ++ join_segments added)
      by now rewrite !string_app_assoc.
    rewrite IH by exact Hadded.
    rewrite split_slash_app, (split_slash_plain s Hs).
    now rewrite <- app_assoc.
Qed.

(** ** [push] on plain segments *)

Lemma with_path_path (u : Url) : with_path u (path u) = u.
Proof. now destruct u. Qed.

Lemma push_plain (u : Url) (seg : string) :
  is_plain seg = true -> (1 < String.length (path u))%nat ->
  push u seg = with_path u (path u ++ "/" ++ seg).
Proof.
  intros H Hlen.
  destruct (plain_not_dot seg H) as [E1 E2].
  unfold push; rewrite E1, E2; cbn [orb]; cbv zeta.
  rewrite (remove_tab_newline_plain seg H).
  destruct (is_special (SchemeType_from (scheme u)));
    (rewrite encode_plain;
     [| intros c Hc; apply (plain_char_facts c Hc) | exact H]);
    rewrite E1, E2;
    (replace (Nat.ltb 1 (String.length (path u))) with true
      by (symmetry; apply Nat.ltb_lt; exact Hlen));
    unfold with_path; now rewrite string_app_assoc.
Qed.

Lemma fold_push_plain (segs : list string) (u : Url) :
  forallb is_plain segs = true -> (1 < String.length (path u))%nat ->
  fold_left push segs u = with_path u (path u ++ join_segments segs).
Proof.
  revert u; induction segs as [|s segs IH]; intros u H Hlen.
  - cbn; now rewrite string_app_nil_r, with_path_path.
  - cbn [forallb] in H; apply andb_prop in H as [Hs Hsegs].
    cbn [fold_left]; rewrite (push_plain u s Hs Hlen).
    rewrite IH; [| exact Hsegs | cbn [with_path path]; rewrite string_length_app; lia].
    change (join_segments (s :: segs)) with ("/" ++ s ++ join_segments segs).
    unfold with_path; cbn [path scheme host port query_fragment].
    now rewrite !string_app_assoc.
Qed.

Lemma push_segments_plain (u : Url) (segs : list string) :
  cannot_be_a_base u = false -> (1 < String.length (path u))%nat ->
  forallb is_plain segs = true ->
  push_segments u segs = Some (with_path u (path u ++ join_segments segs)).
Proof.
  intros Hbase Hlen H.
  unfold push_segments, path_segments_mut; rewrite Hbase.
  now rewrite fold_push_plain.
Qed.

Lemma appends_with_path (u : Url) (added : list string) :
  cannot_be_a_base u = false -> forallb is_plain added = true ->
  appends_segments u (with_path u (path u ++ join_segments added)) added.
Proof.
  intros Hbase H.
  unfold appends_segments; simpl; repeat split.
  unfold path_segments, cannot_be_a_base in *; simpl.
  destruct (path u) as [|c rest]; [discriminate|].
  simpl; rewrite Hbase.
  exists (split_slash rest); split; [reflexivity|].
  now rewrite split_slash_join.
Qed.

Lemma push_segments_base (u : Url) (segs : list string) :
  cannot_be_a_base u = false -> push_segments u segs = Some (fold_left push segs u).
Proof. intro H; unfold push_segments, path_segments_mut; now rewrite H. Qed.

Lemma base_length (u : Url) :
  cannot_be_a_base u = false -> path u <> "/" -> (1 < String.length (path u))%nat.
Proof.
  unfold cannot_be_a_base; intros Hb Hne.
  destruct (path u) as [|c [|c' r]]; [discriminate Hb| |cbn; lia].
  destruct (Ascii.eqb_spec c slash) as [E|E]; [|discriminate Hb].
  subst c; contradiction.
Qed.

(** ** Paths stay rooted under [push] *)

Lemma cannot_be_a_base_sws (u : Url) :
  cannot_be_a_base u = negb (starts_with_slash (path u)).
Proof. unfold cannot_be_a_base, starts_with_slash; now destruct (path u). Qed.

Lemma sws_app (s t : string) :
  starts_with_slash s = true -> starts_with_slash (s ++ t) = true.
Proof. now destruct s. Qed.

Lemma remove_last_char_sws (s : string) :
  starts_with_slash s = true ->
  remove_last_char s = EmptyString \/ starts_with_slash (remove_last_char s) = true.
Proof. destruct s as [|c [|c' r]]; simpl; auto. Qed.

Lemma pop_path_sws (s : string) :
  starts_with_slash s = true -> starts_with_slash (pop_path s) = true.
Proof.
  destruct s as [|c r]; [discriminate|]; simpl; intro H.
  unfold pop_path; simpl.
  destruct (through_last_slash r); simpl; [exact H|].
  now rewrite H.
Qed.

Lemma push_sws (u : Url) (s : string) :
  starts_with_slash (path u) = true -> starts_with_slash (path (push u s)) = true.
Proof.
  intro H; unfold push.
  destruct (String.eqb s "." || String.eqb s ".."); [exact H|].
  cbv zeta; cbn [path].
  set (p1 := if Nat.ltb 1 (String.length (path u)) then path u ++ "/" else path u).
  assert (H1 : starts_with_slash p1 = true)
    by (unfold p1; destruct (Nat.ltb _ _); [apply sws_app|]; exact H).
  destruct (String.eqb _ ".."); [|destruct (String.eqb _ "."); [exact H1|apply sws_app; exact H1]].
  destruct (remove_last_char_sws p1 H1) as [E|E]; [rewrite E; reflexivity|].
  pose proof (pop_path_sws _ E) as Hq.
  destruct (ends_with_slash _); [exact Hq | apply sws_app; exact Hq].
Qed.

Lemma root_derived_base (u : Url) : root_derived u -> cannot_be_a_base u = false.
Proof.
  intro D; rewrite cannot_be_a_base_sws; apply negb_false_iff.
  induction D as [u Hroot | u s _ IH].
  - vm_compute in Hroot; injection Hroot as <-; reflexivity.
  - now apply push_sws.
Qed.

(* ================================================================== *)
(** ** The claims *)

(** C1: [transmute] keeps the URL and the body of every Request, for
    every pair of source and target Method/Value parameters. *)
Theorem transmute_keeps_url_and_body (A V B W : Type) (r : Request A V) :
  url (@transmute A V B W r) = url r /\ body (@transmute A V B W r) = body r.
Proof. split; reflexivity. Qed.

(** C7: [set_body(P); set_body(Q)] leaves the body [Q] (overwrite, not
    merge), and setting the same payload twice is setting it once. *)
Theorem set_body_overwrites_and_idempotent (A V : Type) (r : Request A V)
  (P Q : Json.Value) :
  body (set_body (set_body r P) Q) = Some Q
  /\ set_body (set_body r P) Q = set_body r Q
  /\ set_body (set_body r P) P = set_body r P.
Proof. repeat split. Qed.

(** C8: [DigitalOcean::execute(&c, r)] is [r.execute(&c)]: same result and
    same effect on the world, for every executable Request. *)
Theorem execute_entry_points_agree (Client World Error A V : Type)
  (E : Executable Client World Error A V) (c : DigitalOcean Client)
  (r : Request A V) (w : World) :
  @DigitalOcean_execute Client World Error A V E c r w
  = @execute Client World Error A V E r c w.
Proof. reflexivity. Qed.

(** C2: on a [Request<Get, Volume>] whose path is [.../volumes/X],
    [resize(s)] yields a [Request<Create, Action>] for [.../volumes/X/actions]
    (the rest of the URL unchanged) with body
    [{"type": "resize", "size_gigabytes": s}]. *)
Theorem volume_resize_request (r : Request method.Get api.Volume)
  (p X : string) (s : N) :
  cannot_be_a_base (url r) = false ->
  path (url r) = p ++ "/volumes/" ++ X ->
  exists r', Request_Get_Volume_resize r s = Some r'
    /\ url r' = with_path (url r) (p ++ "/volumes/" ++ X ++ "/actions")
    /\ body r' = Some (Json.Object [("type", Json.String "resize");
                                    ("size_gigabytes", Json.Number (Z.of_N s))]).
Proof.
  intros Hbase Hpath.
  assert (Hlen : (1 < String.length (path (url r)))%nat)
    by (rewrite Hpath, !string_length_app; cbn; lia).
  unfold Request_Get_Volume_resize.
  rewrite (push_segments_plain _ _ Hbase Hlen) by reflexivity.
  eexists; split; [reflexivity|]; split; [|reflexivity].
  cbn [url transmute set_body set_url]; rewrite Hpath.
  cbn [join_segments fold_right VOLUME_ACTIONS_SEGMENT].
  now rewrite string_app_nil_r, !string_app_assoc.
Qed.

(** C3: on a [Request<Get, Volume>] whose path is [.../volumes/X],
    [action(n)] yields a [Request<Get, Action>] for
    [.../volumes/X/actions/n] (n in decimal) with the body unchanged. *)
Theorem volume_action_request (r : Request method.Get api.Volume)
  (p X : string) (n : N) :
  cannot_be_a_base (url r) = false ->
  path (url r) = p ++ "/volumes/" ++ X ->
  exists r', Request_Get_Volume_action r n = Some r'
    /\ url r' = with_path (url r)
                  (p ++ "/volumes/" ++ X ++ "/actions/" ++ usize_to_string n)
    /\ body r' = body r.
Proof.
  intros Hbase Hpath.
  assert (Hlen : (1 < String.length (path (url r)))%nat)
    by (rewrite Hpath, !string_length_app; cbn; lia).
  unfold Request_Get_Volume_action.
  rewrite (push_segments_plain _ _ Hbase Hlen)
    by (cbn [forallb]; rewrite usize_to_string_plain; reflexivity).
  eexists; split; [reflexivity|]; split; [|reflexivity].
  cbn [url transmute set_url]; rewrite Hpath.
  cbn [join_segments fold_right VOLUME_ACTIONS_SEGMENT].
  now rewrite string_app_nil_r, !string_app_assoc.
Qed.

(** C4: on a [Request<Get, Volume>], [attach(d)] and [detach(d)] append
    the one segment [actions] and set the body
    [{"type": "attach" | "detach", "droplet_id": d}]. *)
Theorem volume_attach_detach_request (r : Request method.Get api.Volume) (d : N) :
  cannot_be_a_base (url r) = false -> path (url r) <> "/" ->
  (exists r', Request_Get_Volume_attach r d = Some r'
     /\ url r' = with_path (url r) (path (url r) ++ "/actions")
     /\ body r' = Some (Json.Object [("type", Json.String "attach");
                                     ("droplet_id", Json.Number (Z.of_N d))]))
  /\ (exists r', Request_Get_Volume_detach r d = Some r'
     /\ url r' = with_path (url r) (path (url r) ++ "/actions")
     /\ body r' = Some (Json.Object [("type", Json.String "detach");
                                     ("droplet_id", Json.Number (Z.of_N d))])).
Proof.
  intros Hbase Hne.
  pose proof (base_length _ Hbase Hne) as Hlen.
  unfold Request_Get_Volume_attach, Request_Get_Volume_detach.
  rewrite (push_segments_plain _ _ Hbase Hlen) by reflexivity.
  split; eexists; (split; [reflexivity|]); (split; [|reflexivity]);
    cbn [url transmute set_body set_url join_segments fold_right
         VOLUME_ACTIONS_SEGMENT];
    now rewrite string_app_nil_r.
Qed.

(** C6: on a [Request<Get, Volume>], [actions()] yields a
    [Request<List, Vec<Action>>] with the one segment [actions] appended
    and the body left as it was. *)
Theorem volume_actions_request (r : Request method.Get api.Volume) :
  cannot_be_a_base (url r) = false -> path (url r) <> "/" ->
  exists r', Request_Get_Volume_actions r = Some r'
    /\ url r' = with_path (url r) (path (url r) ++ "/actions")
    /\ body r' = body r.
Proof.
  intros Hbase Hne.
  pose proof (base_length _ Hbase Hne) as Hlen.
  unfold Request_Get_Volume_actions.
  rewrite (push_segments_plain _ _ Hbase Hlen) by reflexivity.
  eexists; split; [reflexivity|]; split; [|reflexivity].
  cbn [url transmute set_url join_segments fold_right VOLUME_ACTIONS_SEGMENT].
  now rewrite string_app_nil_r.
Qed.

(** C10: the five chaining operations on a [Request<Get, Volume>] only
    append path segments: scheme, host, port, query, fragment and every
    existing path segment (the "v2" prefix and the volume id included) are
    kept, and [actions] (then the id, for [action]) follows them. *)
Theorem volume_chaining_only_appends (r : Request method.Get api.Volume)
  (d s n : N) :
  cannot_be_a_base (url r) = false -> path (url r) <> "/" ->
  appends_segments_opt (url r) (Request_Get_Volume_attach r d) ["actions"]
  /\ appends_segments_opt (url r) (Request_Get_Volume_detach r d) ["actions"]
  /\ appends_segments_opt (url r) (Request_Get_Volume_resize r s) ["actions"]
  /\ appends_segments_opt (url r) (Request_Get_Volume_actions r) ["actions"]
  /\ appends_segments_opt (url r) (Request_Get_Volume_action r n)
       ["actions"; usize_to_string n].
Proof.
  intros Hbase Hne.
  pose proof (base_length _ Hbase Hne) as Hlen.
  assert (Hn : forallb is_plain [VOLUME_ACTIONS_SEGMENT; usize_to_string n] = true)
    by (cbn [forallb]; rewrite usize_to_string_plain; reflexivity).
  unfold Request_Get_Volume_attach, Request_Get_Volume_detach,
    Request_Get_Volume_resize, Request_Get_Volume_actions,
    Request_Get_Volume_action.
  rewrite (push_segments_plain _ [VOLUME_ACTIONS_SEGMENT] Hbase Hlen) by reflexivity.
  rewrite (push_segments_plain _ _ Hbase Hlen Hn).
  cbn [appends_segments_opt url transmute set_body set_url].
  repeat split; apply appends_with_path; solve [exact Hbase | reflexivity | exact Hn].
Qed.

(** C5: [Volume::attach(v, d)] and [Volume::detach(v, d)] build a
    [Request<Create, Action>] for the root URL with the one segment
    [volumes] appended, i.e. [https://api.digitalocean.com/v2/volumes],
    with body [{"type": "attach" | "detach", "volume_name": v,
    "droplet_id": d}]. *)
Theorem volume_attach_detach_by_name (v : string) (d : N) :
  (exists root r, ROOT_URL = Some root /\ Volume_attach v d = Some r
     /\ url r = with_path root (path root ++ "/volumes")
     /\ serialize (url r) = "https://api.digitalocean.com/v2/volumes"
     /\ path_segments (url r) = Some ["v2"; "volumes"]
     /\ body r = Some (Json.Object [("type", Json.String "attach");
                                    ("volume_name", Json.String v);
                                    ("droplet_id", Json.Number (Z.of_N d))]))
  /\ (exists root r, ROOT_URL = Some root /\ Volume_detach v d = Some r
     /\ url r = with_path root (path root ++ "/volumes")
     /\ serialize (url r) = "https://api.digitalocean.com/v2/volumes"
     /\ path_segments (url r) = Some ["v2"; "volumes"]
     /\ body r = Some (Json.Object [("type", Json.String "detach");
                                    ("volume_name", Json.String v);
                                    ("droplet_id", Json.Number (Z.of_N d))])).
Proof.
  split; do 2 eexists; repeat split; reflexivity.
Qed.

(** C9: the root URL string parses, and no [expect(STATIC_URL_ERROR)] of
    the volume-action constructors can fire: [Volume::attach]/[detach]
    always return, and so do the five chaining operations on any
    [Request<Get, Volume>] whose URL is a path extension of [ROOT_URL]. *)
Theorem static_url_errors_unreachable :
  Url_parse ROOT_URL_STR =
    Parsed {| scheme := "https"; host := "api.digitalocean.com"; port := None;
              path := "/v2"; query_fragment := EmptyString |}
  /\ ROOT_URL <> None
  /\ (forall v d, Volume_attach v d <> None /\ Volume_detach v d <> None)
  /\ (forall (r : Request method.Get api.Volume) (d s n : N),
        root_derived (url r) ->
        Request_Get_Volume_attach r d <> None
        /\ Request_Get_Volume_detach r d <> None
        /\ Request_Get_Volume_resize r s <> None
        /\ Request_Get_Volume_actions r <> None
        /\ Request_Get_Volume_action r n <> None).
Proof.
  split; [reflexivity|]; split; [discriminate|]; split.
  - intros v d; split; discriminate.
  - intros r d s n D.
    pose proof (root_derived_base _ D) as Hbase.
    unfold Request_Get_Volume_attach, Request_Get_Volume_detach,
      Request_Get_Volume_resize, Request_Get_Volume_actions,
      Request_Get_Volume_action.
    rewrite !(push_segments_base _ _ Hbase).
    repeat split; discriminate.
Qed.

(** ** Witnesses: the claims' hypotheses hold of [Volume::get("abc123")] *)

Lemma volume_resize_request_witness :
  cannot_be_a_base (url example_volume_request) = false
  /\ path (url example_volume_request) = "/v2" ++ "/volumes/" ++ "abc123"
  /\ exists r', Request_Get_Volume_resize example_volume_request 100 = Some r'
       /\ url r' = with_path (url example_volume_request)
                     ("/v2" ++ "/volumes/" ++ "abc123" ++ "/actions")
       /\ body r' = Some (Json.Object [("type", Json.String "resize");
                                       ("size_gigabytes", Json.Number (Z.of_N 100))]).
Proof.
  split; [reflexivity|]; split; [reflexivity|].
  apply (volume_resize_request example_volume_request "/v2" "abc123" 100);
    reflexivity.
Defined.

Lemma volume_action_request_witness :
  cannot_be_a_base (url example_volume_request) = false
  /\ path (url example_volume_request) = "/v2" ++ "/volumes/" ++ "abc123"
  /\ exists r', Request_Get_Volume_action example_volume_request 7 = Some r'
       /\ url r' = with_path (url example_volume_request)
                     ("/v2" ++ "/volumes/" ++ "abc123" ++ "/actions/"
                      ++ usize_to_string 7)
       /\ body r' = body example_volume_request.
Proof.
  split; [reflexivity|]; split; [reflexivity|].
  apply (volume_action_request example_volume_request "/v2" "abc123" 7);
    reflexivity.
Defined.

Lemma volume_attach_detach_request_witness :
  cannot_be_a_base (url example_volume_request) = false
  /\ path (url example_volume_request) <> "/"
  /\ (exists r', Request_Get_Volume_attach example_volume_request 42 = Some r'
       /\ url r' = with_path (url example_volume_request)
                     (path (url example_volume_request) ++ "/actions")
       /\ body r' = Some (Json.Object [("type", Json.String "attach");
                                       ("droplet_id", Json.Number (Z.of_N 42))]))
  /\ (exists r', Request_Get_Volume_detach example_volume_request 42 = Some r'
       /\ url r' = with_path (url example_volume_request)
                     (path (url example_volume_request) ++ "/actions")
       /\ body r' = Some (Json.Object [("type", Json.String "detach");
                                       ("droplet_id", Json.Number (Z.of_N 42))])).
Proof.
  split; [reflexivity|]; split; [vm_compute; discriminate|].
  apply (volume_attach_detach_request example_volume_request 42);
    [reflexivity | vm_compute; discriminate].
Defined.

Lemma volume_actions_request_witness :
  cannot_be_a_base (url example_volume_request) = false
  /\ path (url example_volume_request) <> "/"
  /\ exists r', Request_Get_Volume_actions example_volume_request = Some r'
       /\ url r' = with_path (url example_volume_request)
                     (path (url example_volume_request) ++ "/actions")
       /\ body r' = body example_volume_request.
Proof.
  split; [reflexivity|]; split; [vm_compute; discriminate|].
  apply (volume_actions_request example_volume_request);
    [reflexivity | vm_compute; discriminate].
Defined.

Lemma volume_chaining_only_appends_witness :
  cannot_be_a_base (url example_volume_request) = false
  /\ path (url example_volume_request) <> "/"
  /\ appends_segments_opt (url example_volume_request)
       (Request_Get_Volume_attach example_volume_request 42) ["actions"]
  /\ appends_segments_opt (url example_volume_request)
       (Request_Get_Volume_detach example_volume_request 42) ["actions"]
  /\ appends_segments_opt (url example_volume_request)
       (Request_Get_Volume_resize example_volume_request 100) ["actions"]
  /\ appends_segments_opt (url example_volume_request)
       (Request_Get_Volume_actions example_volume_request) ["actions"]
  /\ appends_segments_opt (url example_volume_request)
       (Request_Get_Volume_action example_volume_request 7)
       ["actions"; usize_to_string 7].
Proof.
  split; [reflexivity|]; split; [vm_compute; discriminate|].
  apply (volume_chaining_only_appends example_volume_request 42 100 7);
    [reflexivity | vm_compute; discriminate].
Defined.

(* ================================================================== *)
(** ** Further properties of the sources *)

Lemma uint_to_string_inj (d1 d2 : Decimal.uint) :
  uint_to_string d1 = uint_to_string d2 -> d1 = d2.
Proof.
  revert d2; induction d1; destruct d2; cbn; intro H;
    try discriminate H; try reflexivity;
    injection H as H; f_equal; auto.
Qed.

Lemma usize_to_string_inj (n m : N) :
  usize_to_string n = usize_to_string m -> n = m.
Proof.
  intro H; apply uint_to_string_inj in H.
  rewrite <- (DecimalN.Unsigned.of_to n), <- (DecimalN.Unsigned.of_to m).
  now rewrite H.
Qed.

Lemma string_app_inv_l (a b c : string) : a ++ b = a ++ c -> b = c.
Proof.
  induction a as [|x a IH]; cbn; [auto|]; intro H; injection H; auto.
Qed.




(** X4: distinct action ids give distinct URLs: on a Request<Get, Volume>
    with a base URL whose path is not "/", [action(n)] and [action(m)]
    address the same URL only when [n = m]. *)
Theorem volume_action_url_injective (r : Request method.Get api.Volume) (n m : N) :
  cannot_be_a_base (url r) = false -> path (url r) <> "/" ->
  option_map url (Request_Get_Volume_action r n)
    = option_map url (Request_Get_Volume_action r m) -> n = m.
Proof.
  intros Hbase Hne Heq.
  pose proof (base_length _ Hbase Hne) as Hlen.
  assert (Hp : forall k, forallb is_plain [VOLUME_ACTIONS_SEGMENT; usize_to_string k] = true)
    by (intro k; cbn [forallb]; rewrite usize_to_string_plain; reflexivity).
  unfold Request_Get_Volume_action in Heq.
  rewrite !(push_segments_plain _ _ Hbase Hlen (Hp _)) in Heq.
  cbn in Heq; injection Heq as Heq.
  apply string_app_inv_l in Heq; cbn in Heq.
  injection Heq as Heq.
  apply usize_to_string_inj.
  rewrite !string_app_nil_r in Heq; exact Heq.
Qed.





(** ** Witnesses of the further properties *)


Lemma volume_action_url_injective_witness :
  cannot_be_a_base (url example_volume_request) = false
  /\ path (url example_volume_request) <> "/"
  /\ option_map url (Request_Get_Volume_action example_volume_request 7)
     = option_map url (Request_Get_Volume_action example_volume_request 7)
  /\ (7 = 7)%N.
Proof.
  split; [reflexivity|]; split; [vm_compute; discriminate|]; split; [reflexivity|].
  apply (volume_action_url_injective example_volume_request 7 7);
    [reflexivity | vm_compute; discriminate | reflexivity].
Defined.


